(** * The truncating embedding reducer

    A verification development for
    [embeddings_pipelines/models/embedding_dimensionality_reduction_models.py]:
    the class [DummyEmbeddingDimensionalityReductionModel] with its four
    methods [__init__], [build], [predict] and [dispose].

    The class is embedded over a small model of the Python objects it
    touches: a heap holding instance dictionaries and numpy data buffers,
    values that are [None], integers, instance references or 1-D array
    objects, a state-and-exception monad, and the positional call protocol
    (a bound call [obj.m(args)] passes [obj] as first argument and raises
    [TypeError] when the argument count differs from the parameter count). *)

From stdpp Require Import base option list gmap strings.
From Stdlib Require Import ZArith Lia PrimFloat.

Local Open Scope Z_scope.

(** ** Python objects *)

Definition loc := positive.

(** A 1-D numpy array object of floats: a window of [shape] consecutive
    items, starting at item [offset], of the data buffer stored at [data].
    Basic slicing builds a new array object on the same buffer (a view). *)
Record ndarray := Ndarray { data : loc; offset : nat; shape : nat }.

Inductive value :=
| VNone
| VInt (z : Z)
| VRef (l : loc)
| VArray (a : ndarray).

(** What a heap cell holds: the [__dict__] of an instance of the class, or
    the items of a numpy data buffer. *)
Inductive hobj :=
| HInstance (dict : gmap string value)
| HBuffer (items : list float).

Abbreviation heap := (gmap loc hobj).

(** ** Exceptions and the state monad *)

Inductive exn := TypeError | AttributeError.

Inductive outcome (A : Type) :=
| Ok (a : A)
| Raise (e : exn).
Arguments Ok {A} a.
Arguments Raise {A} e.

(** A computation runs on a heap and gives an outcome and the heap it
    leaves; what was written before an exception stays written. *)
Definition M (A : Type) : Type := heap -> outcome A * heap.

Definition ret {A} (a : A) : M A := fun h => (Ok a, h).
Definition raise {A} (e : exn) : M A := fun h => (Raise e, h).
Definition bind {A B} (m : M A) (k : A -> M B) : M B :=
  fun h => match m h with
           | (Ok a, h') => k a h'
           | (Raise e, h') => (Raise e, h')
           end.

Notation "'do' x <- m ; k" := (bind m (fun x => k))
  (at level 10, x name, m at level 100, k at level 200, only parsing).

(** [obj.name] on an instance: the entry of its [__dict__]. *)
Definition getattr (obj : value) (name : string) : M value :=
  fun h => match obj with
           | VRef l =>
               match h !! l with
               | Some (HInstance dict) =>
                   match dict !! name with
                   | Some v => (Ok v, h)
                   | None => (Raise AttributeError, h)
                   end
               | _ => (Raise AttributeError, h)
               end
           | _ => (Raise AttributeError, h)
           end.

(** [obj.name = v] on an instance: writes the entry of its [__dict__]. *)
Definition setattr (obj : value) (name : string) (v : value) : M unit :=
  fun h => match obj with
           | VRef l =>
               match h !! l with
               | Some (HInstance dict) =>
                   (Ok tt, <[l := HInstance (<[name := v]> dict)]> h)
               | _ => (Raise AttributeError, h)
               end
           | _ => (Raise AttributeError, h)
           end.

(** ** Functions and calls *)

(** A [def]: its parameter names and its body, which receives the values
    bound to them, in order. *)
Record pyfun := Def { params : list string; body : list value -> M value }.

(** A call with positional arguments: one argument per parameter, else
    [TypeError] before the body runs. *)
Definition call (f : pyfun) (args : list value) : M value :=
  if decide (length args = length (params f)) then body f args
  else raise TypeError.

Definition __init__ : pyfun :=
  Def ["self"; "reduced_embedding_size"]%string
      (fun args => match args with
                   | [self; reduced_embedding_size] =>
                       do _ <- setattr self "reduced_embedding_size" reduced_embedding_size;
                       ret VNone
                   | _ => raise TypeError
                   end).

Definition build : pyfun :=
  Def ["self"]%string
      (fun args => match args with
                   | [self] => ret VNone
                   | _ => raise TypeError
                   end).

(** ** numpy basic slicing *)

(** The index adjustment every Python sequence applies to a slice of step
    1 over [length] items: a negative bound counts from the end and is
    clipped at 0, a bound past the end is clipped at [length]; the result
    is the adjusted start and the number of items selected.  (Python first
    clamps the bounds to the machine word; a length fits in the word, so
    the clamp changes nothing here and the bounds stay in [Z].) *)
Definition adjust_bound (length bound : Z) : Z :=
  if bound <? 0 then
    (if bound + length <? 0 then 0 else bound + length)
  else if bound >=? length then length
  else bound.

Definition adjust_indices (length start stop : Z) : Z * Z :=
  let start := adjust_bound length start in
  let stop := adjust_bound length stop in
  (start, if start <? stop then (stop - start - 1) / 1 + 1 else 0).

(** [a[:stop]] for an integer [stop]: a view on the buffer of [a]. *)
Definition slice_upto (a : ndarray) (stop : Z) : ndarray :=
  let '(start, slicelength) := adjust_indices (Z.of_nat (shape a)) 0 stop in
  Ndarray (data a) (offset a + Z.to_nat start) (Z.to_nat slicelength).

(** [obj[:stop]].  Only array objects are subscriptable among the values
    modelled; the bound is an integer or [None] (no bound: the whole
    array), anything else is not an index. *)
Definition getitem_upto (obj stop : value) : M value :=
  match obj with
  | VArray a =>
      match stop with
      | VInt k => ret (VArray (slice_upto a k))
      | VNone => ret (VArray (slice_upto a (Z.of_nat (shape a))))
      | _ => raise TypeError
      end
  | _ => raise TypeError
  end.

Definition predict : pyfun :=
  Def ["self"; "embedding"]%string
      (fun args => match args with
                   | [self; embedding] =>
                       do stop <- getattr self "reduced_embedding_size";
                       getitem_upto embedding stop
                   | _ => raise TypeError
                   end).

(** The source writes [def dispose():], with no parameter. *)
Definition dispose : pyfun :=
  Def []
      (fun args => match args with
                   | [] => ret VNone
                   | _ => raise TypeError
                   end).

(** ** The class *)

Definition DummyEmbeddingDimensionalityReductionModel : gmap string pyfun :=
  list_to_map [("__init__", __init__); ("build", build);
               ("predict", predict); ("dispose", dispose)]%string.

(** [obj.name(args)] on an instance of the class.  An entry of the
    instance [__dict__] shadows the method of the class, and none of the
    values modelled is callable; otherwise the method is called with [obj]
    as its first argument.  The base class is not part of the sources and
    is taken to add no attribute. *)
Definition call_method (obj : value) (name : string) (args : list value)
  : M value :=
  fun h => match obj with
           | VRef l =>
               match h !! l with
               | Some (HInstance dict) =>
                   match dict !! name with
                   | Some _ => (Raise TypeError, h)
                   | None =>
                       match DummyEmbeddingDimensionalityReductionModel !! name with
                       | Some f => call f (obj :: args) h
                       | None => (Raise AttributeError, h)
                       end
                   end
               | _ => (Raise AttributeError, h)
               end
           | _ => (Raise AttributeError, h)
           end.

(** [DummyEmbeddingDimensionalityReductionModel(args)]: a new instance
    with an empty [__dict__], initialised by [__init__]. *)
Definition new_instance : M value :=
  fun h => let l := fresh (dom h) in (Ok (VRef l), <[l := HInstance ∅]> h).

Definition construct (args : list value) : M value :=
  do self <- new_instance;
  do _ <- call_method self "__init__" args;
  ret self.

(** ** Reading the model *)

(** The items an array object denotes, when its window lies in a buffer. *)
Definition tolist (h : heap) (a : ndarray) : option (list float) :=
  match h !! data a with
  | Some (HBuffer items) =>
      if decide (offset a + shape a <= length items)%nat
      then Some (take (shape a) (drop (offset a) items))
      else None
  | _ => None
  end.

(** The instance at [l] is as the constructor leaves it for the argument
    [t]: its [__dict__] has the one entry [reduced_embedding_size]. *)
Definition model_at (h : heap) (l : loc) (t : Z) : Prop :=
  h !! l = Some (HInstance {["reduced_embedding_size"%string := VInt t]}).

(** ** Client code used in the examples *)

(** [np.array(items)]: a new buffer and the array object over all of it. *)
Definition np_array (items : list float) : M value :=
  fun h => let l := fresh (dom h) in
           (Ok (VArray (Ndarray l 0 (length items))), <[l := HBuffer items]> h).

(** [m = DummyEmbeddingDimensionalityReductionModel(t);
     e = np.array(items)] on the empty heap: the heap and the two objects. *)
Definition setup (t : Z) (items : list float) : outcome (value * value) * heap :=
  (do m <- construct [VInt t];
   do e <- np_array items;
   ret (m, e)) ∅.

(** What [setup] leaves: the heap, the instance (the first object
    allocated) and the array object over the whole second one. *)
Definition client_heap (t : Z) (items : list float) : heap := (setup t items).2.
Definition client_model : loc := 1%positive.
Definition client_array (items : list float) : ndarray :=
  Ndarray 2%positive 0 (length items).

(** [list(m.predict(e))] after [setup]: the items of the output, if the
    call returns an array. *)
Definition client_predict (t : Z) (items : list float) : option (list float) :=
  match call_method (VRef client_model) "predict"
                    [VArray (client_array items)] (client_heap t items) with
  | (Ok (VArray out), h) => tolist h out
  | _ => None
  end.

(** [setup] followed by [m2 = DummyEmbeddingDimensionalityReductionModel(t2)]:
    the heap and the second instance (the third object allocated). *)
Definition client_heap2 (t1 t2 : Z) (items : list float) : heap :=
  (construct [VInt t2] (client_heap t1 items)).2.
Definition client_model2 : loc := 3%positive.

(** [list(m.predict(a))] for the instance at [l], on any heap: the items
    of the output, if the call returns an array. *)
Definition predict_tolist (h : heap) (l : loc) (a : ndarray)
  : option (list float) :=
  match call_method (VRef l) "predict" [VArray a] h with
  | (Ok (VArray out), h') => tolist h' out
  | _ => None
  end.

(** ** Sequences of calls *)

(** A method leaves every heap as it found it, whatever it is called on
    and with, and whether it returns or raises. *)
Definition reads_only (name : string) : Prop :=
  forall (obj : value) (args : list value) (h : heap),
    (call_method obj name args h).2 = h.

(** The calls a client interleaves on one instance. *)
Inductive op :=
| Build
| Predict (embedding : value).

Definition run_op (self : value) (o : op) : M value :=
  match o with
  | Build => call_method self "build" []
  | Predict embedding => call_method self "predict" [embedding]
  end.

(** Runs the calls in order, each on the heap the one before left, and
    records every outcome (a client that catches what a call raises). *)
Fixpoint run_ops (self : value) (ops : list op) (h : heap)
  : list (outcome value) * heap :=
  match ops with
  | [] => ([], h)
  | o :: ops' =>
      let '(r, h1) := run_op self o h in
      let '(rs, h2) := run_ops self ops' h1 in
      (r :: rs, h2)
  end.

(** ** Slicing lemmas *)

Section AdjustBound.

Variable len : Z.
Hypothesis len_nonneg : 0 <= len.

Lemma adjust_bound_range (bound : Z) : 0 <= adjust_bound len bound <= len.
Proof.
  unfold adjust_bound. rewrite Z.geb_leb.
  destruct (Z.ltb_spec bound 0);
    [destruct (Z.ltb_spec (bound + len) 0)
    |destruct (Z.leb_spec len bound)]; lia.
Qed.

Lemma adjust_bound_nonneg (bound : Z) :
  0 <= bound -> adjust_bound len bound = Z.min bound len.
Proof.
  intros Hb. unfold adjust_bound. rewrite Z.geb_leb.
  destruct (Z.ltb_spec bound 0); [lia|].
  destruct (Z.leb_spec len bound); lia.
Qed.

Lemma adjust_bound_neg (bound : Z) :
  bound < 0 -> adjust_bound len bound = Z.max 0 (len + bound).
Proof.
  intros Hb. unfold adjust_bound.
  destruct (Z.ltb_spec bound 0); [|lia].
  destruct (Z.ltb_spec (bound + len) 0); lia.
Qed.

End AdjustBound.

(** With start 0 and step 1 the view keeps the offset and has as many
    items as the adjusted stop. *)
Lemma slice_upto_view (a : ndarray) (stop : Z) :
  slice_upto a stop =
  Ndarray (data a) (offset a)
          (Z.to_nat (adjust_bound (Z.of_nat (shape a)) stop)).
Proof.
  unfold slice_upto, adjust_indices.
  pose proof (adjust_bound_range (Z.of_nat (shape a)) ltac:(lia) stop) as Hs.
  assert (adjust_bound (Z.of_nat (shape a)) 0 = 0) as ->.
  { rewrite adjust_bound_nonneg; lia. }
  rewrite Z.div_1_r.
  destruct (Z.ltb_spec 0 (adjust_bound (Z.of_nat (shape a)) stop));
    f_equal; lia.
Qed.

Lemma tolist_length (h : heap) (a : ndarray) (emb : list float) :
  tolist h a = Some emb -> length emb = shape a.
Proof.
  unfold tolist. destruct (h !! data a) as [[|items]|]; try discriminate.
  case_decide; [|discriminate]. intros [= <-].
  rewrite length_take, length_drop. lia.
Qed.

(** The items of the view are the prefix of the items of the array. *)
Lemma tolist_slice_upto (h : heap) (a : ndarray) (emb : list float) (stop : Z) :
  tolist h a = Some emb ->
  tolist h (slice_upto a stop) =
  Some (take (Z.to_nat (adjust_bound (Z.of_nat (length emb)) stop)) emb).
Proof.
  intros Ha. pose proof (tolist_length _ _ _ Ha) as Hlen.
  rewrite slice_upto_view, Hlen. revert Ha. unfold tolist. simpl.
  destruct (h !! data a) as [[|items]|]; try discriminate.
  pose proof (adjust_bound_range (Z.of_nat (shape a)) ltac:(lia) stop) as Hs.
  case_decide; [|discriminate]. intros [= <-].
  rewrite decide_True by lia.
  rewrite take_take. do 2 f_equal. lia.
Qed.

(** ** Calls on a constructed instance *)

Lemma lookup_model_dict (t : Z) (name : string) :
  name <> "reduced_embedding_size"%string ->
  ({["reduced_embedding_size"%string := VInt t]} : gmap string value) !! name
  = None.
Proof. intros Hne. by rewrite lookup_singleton_ne. Qed.

Section Calls.

Variables (h : heap) (l : loc) (t : Z).
Hypothesis Hmodel : model_at h l t.

(** [m.predict(e)] is [e[:t]]. *)
Lemma call_predict (e : value) :
  call_method (VRef l) "predict" [e] h = getitem_upto e (VInt t) h.
Proof.
  unfold call_method. rewrite Hmodel.
  rewrite lookup_model_dict by discriminate.
  change (DummyEmbeddingDimensionalityReductionModel !! "predict"%string)
    with (Some predict).
  unfold call, predict. simpl. unfold bind, getattr. rewrite Hmodel.
  by rewrite lookup_singleton_eq.
Qed.

Lemma call_predict_array (a : ndarray) :
  call_method (VRef l) "predict" [VArray a] h
  = (Ok (VArray (slice_upto a t)), h).
Proof. by rewrite call_predict. Qed.

Lemma call_build : call_method (VRef l) "build" [] h = (Ok VNone, h).
Proof.
  unfold call_method. rewrite Hmodel. by rewrite lookup_model_dict.
Qed.

(** A bound call always passes the instance, and [dispose] takes nothing. *)
Lemma call_dispose (args : list value) :
  call_method (VRef l) "dispose" args h = (Raise TypeError, h).
Proof.
  unfold call_method. rewrite Hmodel. by rewrite lookup_model_dict.
Qed.

End Calls.

(** No method body of [build], [predict] or [dispose] writes the heap,
    whatever it is called on and with. *)
Lemma getattr_heap (obj : value) (name : string) (h : heap) :
  (getattr obj name h).2 = h.
Proof.
  unfold getattr. destruct obj as [| |l|]; try done.
  destruct (h !! l) as [[dict|]|]; try done. by destruct (dict !! name).
Qed.

Lemma getitem_upto_heap (obj stop : value) (h : heap) :
  (getitem_upto obj stop h).2 = h.
Proof. by destruct obj, stop. Qed.

Lemma body_build_heap (args : list value) (h : heap) :
  (body build args h).2 = h.
Proof. by destruct args as [|? [|? ?]]. Qed.

Lemma body_dispose_heap (args : list value) (h : heap) :
  (body dispose args h).2 = h.
Proof. by destruct args. Qed.

Lemma body_predict_heap (args : list value) (h : heap) :
  (body predict args h).2 = h.
Proof.
  destruct args as [|self [|embedding [|? ?]]]; try done.
  simpl. unfold bind.
  pose proof (getattr_heap self "reduced_embedding_size" h) as Hg.
  destruct (getattr self "reduced_embedding_size" h) as [[stop|e] h'];
    simpl in Hg; subst h'; [apply getitem_upto_heap | done].
Qed.

Lemma call_heap (f : pyfun) (args : list value) (h : heap) :
  (forall args' h', (body f args' h').2 = h') -> (call f args h).2 = h.
Proof. intros Hf. unfold call. case_decide; [apply Hf | done]. Qed.

Lemma call_method_heap (name : string) (f : pyfun) :
  DummyEmbeddingDimensionalityReductionModel !! name = Some f ->
  (forall args h, (body f args h).2 = h) ->
  reads_only name.
Proof.
  intros Hname Hf obj args h. unfold call_method.
  destruct obj as [| |l|]; try done.
  destruct (h !! l) as [[dict|]|]; try done.
  destruct (dict !! name); [done|]. rewrite Hname. by apply call_heap.
Qed.

Lemma build_reads_only : reads_only "build".
Proof. by apply (call_method_heap _ build), body_build_heap. Qed.

Lemma predict_reads_only : reads_only "predict".
Proof. by apply (call_method_heap _ predict), body_predict_heap. Qed.

Lemma dispose_reads_only : reads_only "dispose".
Proof. by apply (call_method_heap _ dispose), body_dispose_heap. Qed.

(** ** The scenarios of the specification *)

Example scenario_truncate :
  client_predict 3 [1.0; 2.0; 3.0; 4.0; 5.0]%float = Some [1.0; 2.0; 3.0]%float.
Proof. vm_compute. reflexivity. Qed.

Example scenario_short :
  client_predict 10 [1.0; 2.0]%float = Some [1.0; 2.0]%float.
Proof. vm_compute. reflexivity. Qed.

Example scenario_zero :
  client_predict 0 [1.0; 2.0; 3.0]%float = Some [].
Proof. vm_compute. reflexivity. Qed.

Example scenario_empty : client_predict 3 [] = Some [].
Proof. vm_compute. reflexivity. Qed.

Example scenario_negative :
  client_predict (-2) [1.0; 2.0; 3.0; 4.0; 5.0]%float
  = Some [1.0; 2.0; 3.0]%float.
Proof. vm_compute. reflexivity. Qed.

(** ** The length of the output *)

(** C1, as amended: for every embedding and every non-negative
    target_length, predict returns an array whose length is
    min(target_length, length(embedding)), and leaves the heap as it was. *)
Theorem predict_length_nonneg
  (h : heap) (l : loc) (t : Z) (a : ndarray) (emb : list float) :
  model_at h l t -> tolist h a = Some emb -> 0 <= t ->
  exists out res,
    call_method (VRef l) "predict" [VArray a] h = (Ok (VArray out), h) /\
    tolist h out = Some res /\
    Z.of_nat (length res) = Z.min t (Z.of_nat (length emb)).
Proof.
  intros Hm Ha Ht. eexists _, _. split; [by apply call_predict_array|].
  split; [by apply tolist_slice_upto|].
  rewrite length_take, adjust_bound_nonneg by lia. lia.
Qed.

Lemma predict_length_nonneg_witness :
  exists out res,
    call_method (VRef client_model) "predict"
                [VArray (client_array [1.0; 2.0; 3.0; 4.0; 5.0]%float)]
                (client_heap 3 [1.0; 2.0; 3.0; 4.0; 5.0]%float)
    = (Ok (VArray out), client_heap 3 [1.0; 2.0; 3.0; 4.0; 5.0]%float) /\
    tolist (client_heap 3 [1.0; 2.0; 3.0; 4.0; 5.0]%float) out = Some res /\
    Z.of_nat (length res)
    = Z.min 3 (Z.of_nat (length [1.0; 2.0; 3.0; 4.0; 5.0]%float)).
Proof.
  apply predict_length_nonneg;
    [vm_compute; reflexivity | vm_compute; reflexivity | lia].
Defined.

(** C1, as stated, fails for a negative target_length: with target_length
    -1 and the embedding [1.0, 2.0], predict returns [1.0], of length 1,
    while min(-1, 2) is -1. *)
Lemma predict_length_negative_counterexample :
  model_at (client_heap (-1) [1.0; 2.0]%float) client_model (-1) /\
  tolist (client_heap (-1) [1.0; 2.0]%float) (client_array [1.0; 2.0]%float)
  = Some [1.0; 2.0]%float /\
  call_method (VRef client_model) "predict"
              [VArray (client_array [1.0; 2.0]%float)]
              (client_heap (-1) [1.0; 2.0]%float)
  = (Ok (VArray (Ndarray 2%positive 0 1)), client_heap (-1) [1.0; 2.0]%float) /\
  tolist (client_heap (-1) [1.0; 2.0]%float) (Ndarray 2%positive 0 1)
  = Some [1.0%float] /\
  ~ (exists out res,
        call_method (VRef client_model) "predict"
                    [VArray (client_array [1.0; 2.0]%float)]
                    (client_heap (-1) [1.0; 2.0]%float)
        = (Ok (VArray out), client_heap (-1) [1.0; 2.0]%float) /\
        tolist (client_heap (-1) [1.0; 2.0]%float) out = Some res /\
        Z.of_nat (length res)
        = Z.min (-1) (Z.of_nat (length [1.0; 2.0]%float))).
Proof.
  repeat split; try (vm_compute; reflexivity).
  intros (out & res & _ & _ & Hlen). simpl in Hlen. lia.
Qed.

(** ** The items of the output *)

(** C2: for every embedding and every position i below
    min(target_length, length(embedding)), predict returns an array whose
    item at i is the item of the embedding at i. *)
Theorem predict_items
  (h : heap) (l : loc) (t : Z) (a : ndarray) (emb : list float) (i : nat) :
  model_at h l t -> tolist h a = Some emb ->
  Z.of_nat i < Z.min t (Z.of_nat (length emb)) ->
  exists out res x,
    call_method (VRef l) "predict" [VArray a] h = (Ok (VArray out), h) /\
    tolist h out = Some res /\
    res !! i = Some x /\ emb !! i = Some x.
Proof.
  intros Hm Ha Hi.
  destruct (lookup_lt_is_Some_2 emb i ltac:(lia)) as [x Hx].
  eexists _, _, x. split; [by apply call_predict_array|].
  split; [by apply tolist_slice_upto|]. split; [|done].
  rewrite lookup_take_lt; [done|].
  rewrite adjust_bound_nonneg by lia. lia.
Qed.

Lemma predict_items_witness :
  exists out res x,
    call_method (VRef client_model) "predict"
                [VArray (client_array [1.0; 2.0; 3.0; 4.0; 5.0]%float)]
                (client_heap 3 [1.0; 2.0; 3.0; 4.0; 5.0]%float)
    = (Ok (VArray out), client_heap 3 [1.0; 2.0; 3.0; 4.0; 5.0]%float) /\
    tolist (client_heap 3 [1.0; 2.0; 3.0; 4.0; 5.0]%float) out = Some res /\
    res !! 2%nat = Some x /\
    [1.0; 2.0; 3.0; 4.0; 5.0]%float !! 2%nat = Some x.
Proof.
  apply (predict_items _ _ 3);
    [vm_compute; reflexivity | vm_compute; reflexivity | simpl; lia].
Defined.

(** C5: for every embedding whose length is at most target_length, predict
    returns an array with exactly the items of the embedding. *)
Theorem predict_short_input
  (h : heap) (l : loc) (t : Z) (a : ndarray) (emb : list float) :
  model_at h l t -> tolist h a = Some emb ->
  Z.of_nat (length emb) <= t ->
  exists out,
    call_method (VRef l) "predict" [VArray a] h = (Ok (VArray out), h) /\
    tolist h out = Some emb.
Proof.
  intros Hm Ha Hlen. eexists. split; [by apply call_predict_array|].
  rewrite (tolist_slice_upto h a emb) by done. f_equal.
  apply take_ge. rewrite adjust_bound_nonneg by lia. lia.
Qed.

(** The scenario of the specification: target_length 10 and [1.0, 2.0]. *)
Lemma predict_short_input_witness :
  exists out,
    call_method (VRef client_model) "predict"
                [VArray (client_array [1.0; 2.0]%float)]
                (client_heap 10 [1.0; 2.0]%float)
    = (Ok (VArray out), client_heap 10 [1.0; 2.0]%float) /\
    tolist (client_heap 10 [1.0; 2.0]%float) out = Some [1.0; 2.0]%float.
Proof.
  apply (predict_short_input _ _ 10);
    [vm_compute; reflexivity | vm_compute; reflexivity | simpl; lia].
Defined.

(** C9: for a negative target_length, predict returns the embedding
    without its last |target_length| items, of length
    max(0, length(embedding) + target_length); it does not raise and the
    length is not min(target_length, length(embedding)). *)
Theorem predict_negative
  (h : heap) (l : loc) (t : Z) (a : ndarray) (emb : list float) :
  model_at h l t -> tolist h a = Some emb -> t < 0 ->
  exists out res,
    call_method (VRef l) "predict" [VArray a] h = (Ok (VArray out), h) /\
    tolist h out = Some res /\
    res = take (length emb - Z.to_nat (- t)) emb /\
    Z.of_nat (length res) = Z.max 0 (Z.of_nat (length emb) + t) /\
    Z.of_nat (length res) <> Z.min t (Z.of_nat (length emb)).
Proof.
  intros Hm Ha Ht. eexists _, _. split; [by apply call_predict_array|].
  split; [by apply tolist_slice_upto|].
  rewrite adjust_bound_neg by lia.
  split; [f_equal; lia|]. rewrite length_take. lia.
Qed.

Lemma predict_negative_witness :
  exists out res,
    call_method (VRef client_model) "predict"
                [VArray (client_array [1.0; 2.0; 3.0; 4.0; 5.0]%float)]
                (client_heap (-2) [1.0; 2.0; 3.0; 4.0; 5.0]%float)
    = (Ok (VArray out), client_heap (-2) [1.0; 2.0; 3.0; 4.0; 5.0]%float) /\
    tolist (client_heap (-2) [1.0; 2.0; 3.0; 4.0; 5.0]%float) out = Some res /\
    res = take (length [1.0; 2.0; 3.0; 4.0; 5.0]%float - Z.to_nat (- -2))
               [1.0; 2.0; 3.0; 4.0; 5.0]%float /\
    Z.of_nat (length res)
    = Z.max 0 (Z.of_nat (length [1.0; 2.0; 3.0; 4.0; 5.0]%float) + -2) /\
    Z.of_nat (length res)
    <> Z.min (-2) (Z.of_nat (length [1.0; 2.0; 3.0; 4.0; 5.0]%float)).
Proof.
  apply (predict_negative _ _ (-2));
    [vm_compute; reflexivity | vm_compute; reflexivity | lia].
Defined.

(** C10: for a non-negative target_length, predict applied to its own
    output returns an array with the same items as that output. *)
Theorem predict_idempotent
  (h : heap) (l : loc) (t : Z) (a : ndarray) (emb : list float) :
  model_at h l t -> tolist h a = Some emb -> 0 <= t ->
  exists out out' res,
    call_method (VRef l) "predict" [VArray a] h = (Ok (VArray out), h) /\
    call_method (VRef l) "predict" [VArray out] h = (Ok (VArray out'), h) /\
    tolist h out = Some res /\
    tolist h out' = Some res.
Proof.
  intros Hm Ha Ht. eexists _, _, _.
  split; [by apply call_predict_array|].
  split; [by apply call_predict_array|].
  pose proof (tolist_slice_upto h a emb t Ha) as Hout.
  split; [exact Hout|].
  rewrite (tolist_slice_upto h _ _ t Hout). f_equal.
  apply take_ge. rewrite length_take.
  rewrite !adjust_bound_nonneg by lia. lia.
Qed.

Lemma predict_idempotent_witness :
  exists out out' res,
    call_method (VRef client_model) "predict"
                [VArray (client_array [1.0; 2.0; 3.0; 4.0; 5.0]%float)]
                (client_heap 3 [1.0; 2.0; 3.0; 4.0; 5.0]%float)
    = (Ok (VArray out), client_heap 3 [1.0; 2.0; 3.0; 4.0; 5.0]%float) /\
    call_method (VRef client_model) "predict" [VArray out]
                (client_heap 3 [1.0; 2.0; 3.0; 4.0; 5.0]%float)
    = (Ok (VArray out'), client_heap 3 [1.0; 2.0; 3.0; 4.0; 5.0]%float) /\
    tolist (client_heap 3 [1.0; 2.0; 3.0; 4.0; 5.0]%float) out = Some res /\
    tolist (client_heap 3 [1.0; 2.0; 3.0; 4.0; 5.0]%float) out' = Some res.
Proof.
  apply (predict_idempotent _ _ 3 _ [1.0; 2.0; 3.0; 4.0; 5.0]%float);
    [vm_compute; reflexivity | vm_compute; reflexivity | lia].
Defined.

(** ** Construction *)

Lemma construct_value (h : heap) (v : value) :
  construct [v] h =
  (Ok (VRef (fresh (dom h))),
   <[fresh (dom h) := HInstance {["reduced_embedding_size"%string := v]}]> h).
Proof.
  unfold construct, bind, new_instance, call_method. simpl.
  rewrite lookup_insert_eq, lookup_empty.
  change (DummyEmbeddingDimensionalityReductionModel !! "__init__"%string)
    with (Some __init__).
  unfold call, __init__. simpl. unfold bind, setattr.
  rewrite lookup_insert_eq, insert_insert_eq, insert_empty. done.
Qed.

(** C4: for every integer, zero and negative ones included, construction
    returns a new instance without raising, and the instance holds that
    integer as reduced_embedding_size; the rest of the heap is as before. *)
Theorem construct_stores (h : heap) (z : Z) :
  exists l h',
    construct [VInt z] h = (Ok (VRef l), h') /\
    h !! l = None /\
    model_at h' l z /\
    (forall l', l' <> l -> h' !! l' = h !! l').
Proof.
  eexists _, _. split; [apply construct_value|].
  split; [apply not_elem_of_dom, is_fresh|].
  split; [apply lookup_insert_eq|].
  intros l' Hne. by rewrite lookup_insert_ne.
Qed.

(** ** The calls that do nothing *)

Lemma run_ops_heap (self : value) (ops : list op) (h : heap) :
  (run_ops self ops h).2 = h.
Proof.
  revert h. induction ops as [|o ops IH]; intros h; [done|]. simpl.
  assert ((run_op self o h).2 = h) as Ho.
  { destruct o; [apply build_reads_only | apply predict_reads_only]. }
  destruct (run_op self o h) as [r h1]. simpl in Ho. subst h1.
  specialize (IH h). by destruct (run_ops self ops h) as [rs h2].
Qed.

Lemma run_ops_outcome (self : value) (ops : list op) (h : heap) (i : nat) (o : op) :
  ops !! i = Some o ->
  (run_ops self ops h).1 !! i = Some (run_op self o h).1.
Proof.
  revert i. induction ops as [|o' ops IH]; intros i Hi; [done|]. simpl.
  assert ((run_op self o' h).2 = h) as Ho.
  { destruct o'; [apply build_reads_only | apply predict_reads_only]. }
  destruct (run_op self o' h) as [r h1] eqn:Hr. simpl in Ho. subst h1.
  destruct (run_ops self ops h) as [rs h2] eqn:Hrs.
  destruct i as [|i]; simpl in *.
  - injection Hi as ->. by rewrite Hr.
  - exact (IH i Hi).
Qed.

(** C3, on the code: dispose called on a constructed instance raises
    TypeError, because the method is defined without a parameter and the
    call passes the instance; called with no argument at all, the same
    function returns None. *)
Theorem dispose_on_instance_raises :
  (do m <- construct [VInt 3]; call_method m "dispose" []) ∅
  = (Raise TypeError,
     {[1%positive := HInstance {["reduced_embedding_size"%string := VInt 3]}]}) /\
  call dispose [] ∅ = (Ok VNone, ∅).
Proof. split; vm_compute; reflexivity. Qed.

(** C7: on a constructed instance build returns None and leaves the heap
    as it was; after any sequence of build and predict calls the heap is
    the one before the sequence, every build in it has returned None, and
    every predict in it has returned what it returns on its own. *)
Theorem build_no_op (h : heap) (l : loc) (t : Z) (ops : list op) :
  model_at h l t ->
  call_method (VRef l) "build" [] h = (Ok VNone, h) /\
  (run_ops (VRef l) ops h).2 = h /\
  (forall i, ops !! i = Some Build ->
             (run_ops (VRef l) ops h).1 !! i = Some (Ok VNone)) /\
  (forall i embedding,
      ops !! i = Some (Predict embedding) ->
      (run_ops (VRef l) ops h).1 !! i
      = Some (call_method (VRef l) "predict" [embedding] h).1).
Proof.
  intros Hm. split; [by apply (call_build h l t)|].
  split; [apply run_ops_heap|]. split.
  - intros i Hi. rewrite (run_ops_outcome _ _ _ _ _ Hi).
    unfold run_op. by rewrite (call_build h l t).
  - intros i embedding Hi. by rewrite (run_ops_outcome _ _ _ _ _ Hi).
Qed.

Lemma build_no_op_witness :
  call_method (VRef client_model) "build" [] (client_heap 3 [1.0; 2.0]%float)
  = (Ok VNone, client_heap 3 [1.0; 2.0]%float) /\
  (run_ops (VRef client_model)
           [Build; Predict (VArray (client_array [1.0; 2.0]%float)); Build;
            Build; Predict (VArray (client_array [1.0; 2.0]%float)); Build]
           (client_heap 3 [1.0; 2.0]%float)).2
  = client_heap 3 [1.0; 2.0]%float /\
  (forall i,
      [Build; Predict (VArray (client_array [1.0; 2.0]%float)); Build;
       Build; Predict (VArray (client_array [1.0; 2.0]%float)); Build] !! i
      = Some Build ->
      (run_ops (VRef client_model)
               [Build; Predict (VArray (client_array [1.0; 2.0]%float)); Build;
                Build; Predict (VArray (client_array [1.0; 2.0]%float)); Build]
               (client_heap 3 [1.0; 2.0]%float)).1 !! i
      = Some (Ok VNone)) /\
  (forall i embedding,
      [Build; Predict (VArray (client_array [1.0; 2.0]%float)); Build;
       Build; Predict (VArray (client_array [1.0; 2.0]%float)); Build] !! i
      = Some (Predict embedding) ->
      (run_ops (VRef client_model)
               [Build; Predict (VArray (client_array [1.0; 2.0]%float)); Build;
                Build; Predict (VArray (client_array [1.0; 2.0]%float)); Build]
               (client_heap 3 [1.0; 2.0]%float)).1 !! i
      = Some (call_method (VRef client_model) "predict" [embedding]
                          (client_heap 3 [1.0; 2.0]%float)).1).
Proof. apply (build_no_op _ _ 3). vm_compute; reflexivity. Defined.

(** ** Purity and the object state *)

(** C6: predict leaves the heap, and with it the items of its argument, as
    they were; and on two instances with the same target_length, given
    arrays with the same items, it returns arrays with the same items. *)
Theorem predict_pure
  (h1 h2 : heap) (l1 l2 : loc) (t : Z) (a1 a2 : ndarray) (emb : list float) :
  model_at h1 l1 t -> model_at h2 l2 t ->
  tolist h1 a1 = Some emb -> tolist h2 a2 = Some emb ->
  exists out1 out2 h1' h2' res,
    call_method (VRef l1) "predict" [VArray a1] h1 = (Ok (VArray out1), h1') /\
    call_method (VRef l2) "predict" [VArray a2] h2 = (Ok (VArray out2), h2') /\
    h1' = h1 /\ h2' = h2 /\
    tolist h1' a1 = Some emb /\ tolist h2' a2 = Some emb /\
    tolist h1' out1 = Some res /\ tolist h2' out2 = Some res.
Proof.
  intros Hm1 Hm2 Ha1 Ha2. eexists _, _, _, _, _.
  split; [by apply call_predict_array|].
  split; [by apply call_predict_array|].
  do 4 (split; [done|]).
  split; by apply tolist_slice_upto.
Qed.

(** The second array is a view past the first item of a longer buffer. *)
Lemma predict_pure_witness :
  exists out1 out2 h1' h2' res,
    call_method (VRef client_model) "predict"
                [VArray (client_array [1.0; 2.0; 3.0; 4.0]%float)]
                (client_heap 3 [1.0; 2.0; 3.0; 4.0]%float)
    = (Ok (VArray out1), h1') /\
    call_method (VRef client_model) "predict"
                [VArray (Ndarray 2%positive 1 4)]
                (client_heap 3 [9.0; 1.0; 2.0; 3.0; 4.0]%float)
    = (Ok (VArray out2), h2') /\
    h1' = client_heap 3 [1.0; 2.0; 3.0; 4.0]%float /\
    h2' = client_heap 3 [9.0; 1.0; 2.0; 3.0; 4.0]%float /\
    tolist h1' (client_array [1.0; 2.0; 3.0; 4.0]%float)
    = Some [1.0; 2.0; 3.0; 4.0]%float /\
    tolist h2' (Ndarray 2%positive 1 4) = Some [1.0; 2.0; 3.0; 4.0]%float /\
    tolist h1' out1 = Some res /\ tolist h2' out2 = Some res.
Proof.
  apply (predict_pure _ _ _ _ 3); vm_compute; reflexivity.
Defined.

(** C8: construction leaves an instance whose only attribute is
    reduced_embedding_size, holding the argument; and build, predict and
    dispose leave every heap, so every instance, exactly as they found it,
    whatever they are called on and with. *)
Theorem state_preserved (h : heap) (z : Z) :
  (exists l,
      construct [VInt z] h
      = (Ok (VRef l),
         <[l := HInstance {["reduced_embedding_size"%string := VInt z]}]> h)) /\
  reads_only "build" /\ reads_only "predict" /\ reads_only "dispose".
Proof.
  split; [eexists; apply construct_value|].
  split; [apply build_reads_only|].
  split; [apply predict_reads_only | apply dispose_reads_only].
Qed.

(** ** The output for every integer bound *)

Lemma take_prefix_le (n m : nat) (emb : list float) :
  (n <= m)%nat -> take n emb `prefix_of` take m emb.
Proof.
  intros Hnm. replace (take n emb) with (take n (take m emb)).
  - apply prefix_take.
  - rewrite take_take. f_equal. lia.
Qed.

Lemma predict_tolist_adjust
  (h : heap) (l : loc) (t : Z) (a : ndarray) (emb : list float) :
  model_at h l t -> tolist h a = Some emb ->
  predict_tolist h l a
  = Some (take (Z.to_nat (adjust_bound (Z.of_nat (length emb)) t)) emb).
Proof.
  intros Hm Ha. unfold predict_tolist.
  rewrite (call_predict_array h l t Hm). by apply tolist_slice_upto.
Qed.

Lemma take_adjust_bound (t : Z) (emb : list float) :
  take (Z.to_nat (adjust_bound (Z.of_nat (length emb)) t)) emb
  = take (Z.to_nat (if t <? 0 then Z.of_nat (length emb) + t else t)) emb.
Proof.
  destruct (Z.ltb_spec t 0).
  - rewrite adjust_bound_neg by lia. f_equal. lia.
  - rewrite adjust_bound_nonneg by lia.
    destruct (Z.le_gt_cases t (Z.of_nat (length emb))).
    + f_equal. lia.
    + rewrite !take_ge; [done | lia | lia].
Qed.

(** X1: for every integer target_length t, predict returns the first t
    items of the embedding when t is not negative, and the first
    length(embedding) + t items when it is (all of them when the count
    exceeds the length, none when it is negative). *)
Theorem predict_closed_form
  (h : heap) (l : loc) (t : Z) (a : ndarray) (emb : list float) :
  model_at h l t -> tolist h a = Some emb ->
  predict_tolist h l a
  = Some (take (Z.to_nat (if t <? 0 then Z.of_nat (length emb) + t else t))
               emb).
Proof.
  intros Hm Ha. rewrite (predict_tolist_adjust h l t a emb Hm Ha).
  by rewrite take_adjust_bound.
Qed.

Lemma predict_closed_form_witness :
  predict_tolist (client_heap (-2) [1.0; 2.0; 3.0; 4.0; 5.0]%float)
                 client_model
                 (client_array [1.0; 2.0; 3.0; 4.0; 5.0]%float)
  = Some (take (Z.to_nat
                  (if -2 <? 0
                   then Z.of_nat (length [1.0; 2.0; 3.0; 4.0; 5.0]%float) + -2
                   else -2))
               [1.0; 2.0; 3.0; 4.0; 5.0]%float).
Proof.
  apply predict_closed_form; vm_compute; reflexivity.
Defined.

(** X2: for every integer target_length, the output of predict is a prefix
    of the embedding, so never longer; it is strictly shorter exactly when
    target_length is below the length and either is not negative or the
    embedding is not empty. *)
Theorem predict_prefix
  (h : heap) (l : loc) (t : Z) (a : ndarray) (emb : list float) :
  model_at h l t -> tolist h a = Some emb ->
  exists res,
    predict_tolist h l a = Some res /\
    res `prefix_of` emb /\
    (length res <= length emb)%nat /\
    ((length res < length emb)%nat <->
     t < Z.of_nat (length emb) /\ (0 <= t \/ emb <> [])).
Proof.
  intros Hm Ha. eexists. split; [by apply predict_tolist_adjust|].
  split; [apply prefix_take|]. rewrite length_take.
  split; [lia|].
  assert (emb <> [] <-> length emb <> 0%nat) as ->.
  { by destruct emb. }
  destruct (Z.lt_ge_cases t 0).
  - rewrite adjust_bound_neg by lia. lia.
  - rewrite adjust_bound_nonneg by lia. lia.
Qed.

Lemma predict_prefix_witness :
  exists res,
    predict_tolist (client_heap 7 [1.0; 2.0]%float) client_model
                   (client_array [1.0; 2.0]%float) = Some res /\
    res `prefix_of` [1.0; 2.0]%float /\
    (length res <= length [1.0; 2.0]%float)%nat /\
    ((length res < length [1.0; 2.0]%float)%nat <->
     7 < Z.of_nat (length [1.0; 2.0]%float) /\
     (0 <= 7 \/ [1.0; 2.0]%float <> [])).
Proof.
  apply predict_prefix; vm_compute; reflexivity.
Defined.

(** X3: between two instances whose target_lengths have the same sign, the
    one with the smaller target_length returns a prefix of what the other
    returns on the same embedding. *)
Theorem predict_monotone
  (h : heap) (l1 l2 : loc) (t1 t2 : Z) (a : ndarray) (emb : list float) :
  model_at h l1 t1 -> model_at h l2 t2 -> tolist h a = Some emb ->
  t1 <= t2 -> 0 <= t1 \/ t2 < 0 ->
  exists res1 res2,
    predict_tolist h l1 a = Some res1 /\
    predict_tolist h l2 a = Some res2 /\
    res1 `prefix_of` res2.
Proof.
  intros Hm1 Hm2 Ha Hle Hsign. eexists _, _.
  split; [by apply predict_tolist_adjust|].
  split; [by apply predict_tolist_adjust|].
  apply take_prefix_le.
  destruct Hsign.
  - rewrite !adjust_bound_nonneg by lia. lia.
  - rewrite !adjust_bound_neg by lia. lia.
Qed.

Lemma predict_monotone_witness :
  exists res1 res2,
    predict_tolist (client_heap2 2 4 [1.0; 2.0; 3.0; 4.0; 5.0]%float)
                   client_model (client_array [1.0; 2.0; 3.0; 4.0; 5.0]%float)
    = Some res1 /\
    predict_tolist (client_heap2 2 4 [1.0; 2.0; 3.0; 4.0; 5.0]%float)
                   client_model2 (client_array [1.0; 2.0; 3.0; 4.0; 5.0]%float)
    = Some res2 /\
    res1 `prefix_of` res2.
Proof.
  apply (predict_monotone _ _ _ 2 4 _ [1.0; 2.0; 3.0; 4.0; 5.0]%float);
    [vm_compute; reflexivity | vm_compute; reflexivity
    | vm_compute; reflexivity | lia | lia].
Defined.

(** ** Chains of reducers *)

Lemma take_clip (n : nat) (emb : list float) :
  take n emb = take (n `min` length emb) emb.
Proof.
  destruct (Nat.le_gt_cases n (length emb)).
  - f_equal. lia.
  - rewrite !take_ge; [done | lia | lia].
Qed.

Lemma take_eq_clip (n m : nat) (emb : list float) :
  (n `min` length emb = m `min` length emb)%nat -> take n emb = take m emb.
Proof. intros Hnm. by rewrite (take_clip n), (take_clip m), Hnm. Qed.

(** The items of [a[:t1][:t2]] in terms of the items of [a]. *)
Lemma tolist_slice_upto_twice
  (h : heap) (a : ndarray) (emb : list float) (t1 t2 : Z) :
  tolist h a = Some emb ->
  tolist h (slice_upto (slice_upto a t1) t2)
  = Some (take (Z.to_nat
                  (adjust_bound
                     (Z.of_nat (Z.to_nat (adjust_bound (Z.of_nat (length emb)) t1)
                                `min` length emb)) t2)
                `min` Z.to_nat (adjust_bound (Z.of_nat (length emb)) t1))
               emb).
Proof.
  intros Ha.
  rewrite (tolist_slice_upto h _ _ t2 (tolist_slice_upto h a emb t1 Ha)).
  by rewrite take_take, length_take.
Qed.

(** X4: two instances with non-negative target_lengths t1 and t2 applied
    one after the other, in either order, return the first min(t1, t2)
    items of the embedding. *)
Theorem predict_compose_nonneg
  (h : heap) (l1 l2 : loc) (t1 t2 : Z) (a : ndarray) (emb : list float) :
  model_at h l1 t1 -> model_at h l2 t2 -> tolist h a = Some emb ->
  0 <= t1 -> 0 <= t2 ->
  exists o1 o2 o12 o21,
    call_method (VRef l1) "predict" [VArray a] h = (Ok (VArray o1), h) /\
    call_method (VRef l2) "predict" [VArray o1] h = (Ok (VArray o12), h) /\
    call_method (VRef l2) "predict" [VArray a] h = (Ok (VArray o2), h) /\
    call_method (VRef l1) "predict" [VArray o2] h = (Ok (VArray o21), h) /\
    tolist h o12 = Some (take (Z.to_nat (Z.min t1 t2)) emb) /\
    tolist h o21 = Some (take (Z.to_nat (Z.min t1 t2)) emb).
Proof.
  intros Hm1 Hm2 Ha Ht1 Ht2. eexists _, _, _, _.
  do 4 (split; [by apply call_predict_array|]).
  rewrite !(tolist_slice_upto_twice h a emb) by done.
  rewrite !adjust_bound_nonneg by lia.
  split; f_equal; apply take_eq_clip; lia.
Qed.

Lemma predict_compose_nonneg_witness :
  exists o1 o2 o12 o21,
    call_method (VRef client_model) "predict"
                [VArray (client_array [1.0; 2.0; 3.0; 4.0; 5.0]%float)]
                (client_heap2 2 4 [1.0; 2.0; 3.0; 4.0; 5.0]%float)
    = (Ok (VArray o1), client_heap2 2 4 [1.0; 2.0; 3.0; 4.0; 5.0]%float) /\
    call_method (VRef client_model2) "predict" [VArray o1]
                (client_heap2 2 4 [1.0; 2.0; 3.0; 4.0; 5.0]%float)
    = (Ok (VArray o12), client_heap2 2 4 [1.0; 2.0; 3.0; 4.0; 5.0]%float) /\
    call_method (VRef client_model2) "predict"
                [VArray (client_array [1.0; 2.0; 3.0; 4.0; 5.0]%float)]
                (client_heap2 2 4 [1.0; 2.0; 3.0; 4.0; 5.0]%float)
    = (Ok (VArray o2), client_heap2 2 4 [1.0; 2.0; 3.0; 4.0; 5.0]%float) /\
    call_method (VRef client_model) "predict" [VArray o2]
                (client_heap2 2 4 [1.0; 2.0; 3.0; 4.0; 5.0]%float)
    = (Ok (VArray o21), client_heap2 2 4 [1.0; 2.0; 3.0; 4.0; 5.0]%float) /\
    tolist (client_heap2 2 4 [1.0; 2.0; 3.0; 4.0; 5.0]%float) o12
    = Some (take (Z.to_nat (Z.min 2 4)) [1.0; 2.0; 3.0; 4.0; 5.0]%float) /\
    tolist (client_heap2 2 4 [1.0; 2.0; 3.0; 4.0; 5.0]%float) o21
    = Some (take (Z.to_nat (Z.min 2 4)) [1.0; 2.0; 3.0; 4.0; 5.0]%float).
Proof.
  apply predict_compose_nonneg;
    [vm_compute; reflexivity | vm_compute; reflexivity
    | vm_compute; reflexivity | lia | lia].
Defined.

(** X5: two instances with negative target_lengths t1 and t2 applied one
    after the other return the first length(embedding) + t1 + t2 items, so
    each application drops items again: whenever the first output is not
    empty, the second is strictly shorter.  With the same instance twice,
    predict with a negative target_length is not idempotent. *)
Theorem predict_chain_negative
  (h : heap) (l1 l2 : loc) (t1 t2 : Z) (a : ndarray) (emb : list float) :
  model_at h l1 t1 -> model_at h l2 t2 -> tolist h a = Some emb ->
  t1 < 0 -> t2 < 0 ->
  exists o1 o12 res1 res12,
    call_method (VRef l1) "predict" [VArray a] h = (Ok (VArray o1), h) /\
    call_method (VRef l2) "predict" [VArray o1] h = (Ok (VArray o12), h) /\
    tolist h o1 = Some res1 /\
    tolist h o12 = Some res12 /\
    res12 = take (Z.to_nat (Z.of_nat (length emb) + t1 + t2)) emb /\
    (res1 <> [] -> (length res12 < length res1)%nat).
Proof.
  intros Hm1 Hm2 Ha Ht1 Ht2. eexists _, _, _, _.
  do 2 (split; [by apply call_predict_array|]).
  split; [by apply tolist_slice_upto|].
  split; [by apply tolist_slice_upto_twice|].
  rewrite !adjust_bound_neg by lia. split.
  - apply take_eq_clip. lia.
  - intros Hne.
    assert (length (take (Z.to_nat (Z.max 0 (Z.of_nat (length emb) + t1))) emb)
            <> 0%nat) as Hlen.
    { by destruct (take _ emb). }
    revert Hlen. rewrite !length_take. lia.
Qed.

Lemma predict_chain_negative_witness :
  exists o1 o12 res1 res12,
    call_method (VRef client_model) "predict"
                [VArray (client_array [1.0; 2.0; 3.0; 4.0; 5.0]%float)]
                (client_heap (-2) [1.0; 2.0; 3.0; 4.0; 5.0]%float)
    = (Ok (VArray o1), client_heap (-2) [1.0; 2.0; 3.0; 4.0; 5.0]%float) /\
    call_method (VRef client_model) "predict" [VArray o1]
                (client_heap (-2) [1.0; 2.0; 3.0; 4.0; 5.0]%float)
    = (Ok (VArray o12), client_heap (-2) [1.0; 2.0; 3.0; 4.0; 5.0]%float) /\
    tolist (client_heap (-2) [1.0; 2.0; 3.0; 4.0; 5.0]%float) o1 = Some res1 /\
    tolist (client_heap (-2) [1.0; 2.0; 3.0; 4.0; 5.0]%float) o12
    = Some res12 /\
    res12 = take (Z.to_nat
                    (Z.of_nat (length [1.0; 2.0; 3.0; 4.0; 5.0]%float) + -2 + -2))
                 [1.0; 2.0; 3.0; 4.0; 5.0]%float /\
    (res1 <> [] -> (length res12 < length res1)%nat).
Proof.
  apply (predict_chain_negative _ _ _ (-2) (-2) _
                                [1.0; 2.0; 3.0; 4.0; 5.0]%float);
    [vm_compute; reflexivity | vm_compute; reflexivity
    | vm_compute; reflexivity | lia | lia].
Defined.

(** ** The output is a view *)

(** X6: predict allocates nothing and copies nothing: for every integer
    target_length the array object it returns lies on the data buffer of
    its argument, at the same offset and no longer; whatever is later
    written in that buffer, the output reads the prefix of what the
    argument reads. *)
Theorem predict_returns_view (h : heap) (l : loc) (t : Z) (a : ndarray) :
  model_at h l t ->
  exists out,
    call_method (VRef l) "predict" [VArray a] h = (Ok (VArray out), h) /\
    data out = data a /\ offset out = offset a /\
    (shape out <= shape a)%nat /\
    forall items emb,
      tolist (<[data a := HBuffer items]> h) a = Some emb ->
      tolist (<[data a := HBuffer items]> h) out = Some (take (shape out) emb).
Proof.
  intros Hm. exists (slice_upto a t).
  split; [by apply call_predict_array|].
  pose proof (adjust_bound_range (Z.of_nat (shape a)) ltac:(lia) t) as Hr.
  rewrite slice_upto_view. simpl.
  do 2 (split; [done|]). split; [lia|].
  intros items emb Ha. rewrite <- slice_upto_view.
  rewrite (tolist_slice_upto _ _ _ t Ha).
  by rewrite (tolist_length _ _ _ Ha).
Qed.

Lemma predict_returns_view_witness :
  exists out,
    call_method (VRef client_model) "predict"
                [VArray (client_array [1.0; 2.0; 3.0]%float)]
                (client_heap 2 [1.0; 2.0; 3.0]%float)
    = (Ok (VArray out), client_heap 2 [1.0; 2.0; 3.0]%float) /\
    data out = data (client_array [1.0; 2.0; 3.0]%float) /\
    offset out = offset (client_array [1.0; 2.0; 3.0]%float) /\
    (shape out <= shape (client_array [1.0; 2.0; 3.0]%float))%nat /\
    forall items emb,
      tolist (<[data (client_array [1.0; 2.0; 3.0]%float) := HBuffer items]>
                (client_heap 2 [1.0; 2.0; 3.0]%float))
             (client_array [1.0; 2.0; 3.0]%float) = Some emb ->
      tolist (<[data (client_array [1.0; 2.0; 3.0]%float) := HBuffer items]>
                (client_heap 2 [1.0; 2.0; 3.0]%float))
             out = Some (take (shape out) emb).
Proof. apply (predict_returns_view _ _ 2). vm_compute; reflexivity. Defined.

(** ** Arguments the constructor does not check *)

(** [m.predict(e)] on an instance whose only attribute holds any value. *)
Lemma call_predict_value (h : heap) (l : loc) (v e : value) :
  h !! l = Some (HInstance {["reduced_embedding_size"%string := v]}) ->
  call_method (VRef l) "predict" [e] h = getitem_upto e v h.
Proof.
  intros Hl. unfold call_method. rewrite Hl.
  rewrite lookup_singleton_ne by discriminate.
  change (DummyEmbeddingDimensionalityReductionModel !! "predict"%string)
    with (Some predict).
  unfold call, predict. simpl. unfold bind, getattr. rewrite Hl.
  by rewrite lookup_singleton_eq.
Qed.

(** X7: an instance constructed with None as reduced_embedding_size
    returns every embedding whole: the slice has no bound. *)
Theorem predict_none_bound
  (h0 h : heap) (l : loc) (a : ndarray) (emb : list float) :
  construct [VNone] h0 = (Ok (VRef l), h) -> tolist h a = Some emb ->
  exists out,
    call_method (VRef l) "predict" [VArray a] h = (Ok (VArray out), h) /\
    tolist h out = Some emb.
Proof.
  rewrite construct_value. intros [= <- <-] Ha.
  eexists. split.
  - rewrite (call_predict_value _ _ VNone); [done | apply lookup_insert_eq].
  - rewrite (tolist_slice_upto _ _ _ _ Ha). f_equal. apply take_ge.
    rewrite (tolist_length _ _ _ Ha), adjust_bound_nonneg by lia. lia.
Qed.

Lemma predict_none_bound_witness :
  exists out,
    call_method (VRef 2%positive) "predict" [VArray (Ndarray 1%positive 0 2)]
                (construct [VNone] (np_array [1.0; 2.0]%float ∅).2).2
    = (Ok (VArray out), (construct [VNone] (np_array [1.0; 2.0]%float ∅).2).2) /\
    tolist (construct [VNone] (np_array [1.0; 2.0]%float ∅).2).2 out
    = Some [1.0; 2.0]%float.
Proof.
  apply (predict_none_bound (np_array [1.0; 2.0]%float ∅).2);
    vm_compute; reflexivity.
Defined.


(** ** What predict accepts *)

Lemma call_method_class
  (h : heap) (l : loc) (t : Z) (name : string) (args : list value) :
  model_at h l t -> name <> "reduced_embedding_size"%string ->
  call_method (VRef l) name args h =
  match DummyEmbeddingDimensionalityReductionModel !! name with
  | Some f => call f (VRef l :: args) h
  | None => (Raise AttributeError, h)
  end.
Proof.
  unfold model_at. intros Hm Hne. unfold call_method. rewrite Hm.
  by rewrite lookup_model_dict.
Qed.



(** X10: on an instance that has no reduced_embedding_size attribute (one
    whose __init__ has not run) predict raises AttributeError, whatever
    its argument, and leaves the heap as it was. *)
Theorem predict_uninitialised
  (h : heap) (l : loc) (dict : gmap string value) (e : value) :
  h !! l = Some (HInstance dict) ->
  dict !! "reduced_embedding_size"%string = None ->
  dict !! "predict"%string = None ->
  call_method (VRef l) "predict" [e] h = (Raise AttributeError, h).
Proof.
  intros Hl Hattr Hmeth. unfold call_method. rewrite Hl, Hmeth.
  change (DummyEmbeddingDimensionalityReductionModel !! "predict"%string)
    with (Some predict).
  unfold call, predict. simpl. unfold bind, getattr. by rewrite Hl, Hattr.
Qed.

Lemma predict_uninitialised_witness :
  call_method (VRef 1%positive) "predict" [VArray (Ndarray 2%positive 0 0)]
              (new_instance ∅).2
  = (Raise AttributeError, (new_instance ∅).2).
Proof.
  apply (predict_uninitialised _ _ ∅); vm_compute; reflexivity.
Defined.

(** ** Construction and instances *)

(** X11: the class called with exactly one argument returns a new
    instance; called with none or with several it raises TypeError. *)
Theorem construct_arity (h : heap) (args : list value) :
  (construct args h).1
  = if decide (length args = 1%nat) then Ok (VRef (fresh (dom h)))
    else Raise TypeError.
Proof.
  destruct args as [|v [|v' args]].
  - unfold construct, bind, new_instance, call_method. simpl.
    by rewrite lookup_insert_eq, lookup_empty.
  - by rewrite construct_value.
  - unfold construct, bind, new_instance, call_method. simpl.
    by rewrite lookup_insert_eq, lookup_empty.
Qed.

Lemma tolist_insert_instance
  (h : heap) (l : loc) (dict : gmap string value) (a : ndarray)
  (emb : list float) :
  data a <> l -> tolist h a = Some emb ->
  tolist (<[l := HInstance dict]> h) a = Some emb.
Proof. intros Hne. unfold tolist. by rewrite lookup_insert_ne. Qed.

Lemma tolist_data_buffer (h : heap) (a : ndarray) (emb : list float) :
  tolist h a = Some emb -> exists items, h !! data a = Some (HBuffer items).
Proof.
  unfold tolist. destruct (h !! data a) as [[|items]|]; try discriminate.
  eauto.
Qed.

(** X12: constructing another instance leaves a constructed instance and
    the arrays of the heap as they were: the new instance is a different
    object with its own reduced_embedding_size, and the old one returns
    from predict what it returned before. *)
Theorem construct_independent
  (h : heap) (l : loc) (t z : Z) (a : ndarray) (emb : list float) :
  model_at h l t -> tolist h a = Some emb ->
  exists l' h',
    construct [VInt z] h = (Ok (VRef l'), h') /\
    l' <> l /\
    model_at h' l t /\ model_at h' l' z /\
    tolist h' a = Some emb /\
    predict_tolist h' l a = predict_tolist h l a.
Proof.
  intros Hm Ha. eexists _, _. split; [apply construct_value|].
  pose proof (is_fresh (dom h)) as Hfresh.
  assert (fresh (dom h) <> l) as Hl.
  { intros Heq. apply Hfresh. rewrite Heq. apply elem_of_dom.
    unfold model_at in Hm. eauto. }
  assert (data a <> fresh (dom h)) as Hd.
  { intros Heq. destruct (tolist_data_buffer _ _ _ Ha) as [items Hitems].
    apply Hfresh. rewrite <- Heq. apply elem_of_dom. eauto. }
  assert (model_at (<[fresh (dom h) := HInstance
                        {["reduced_embedding_size"%string := VInt z]}]> h) l t)
    as Hm'.
  { unfold model_at. by rewrite lookup_insert_ne. }
  pose proof (tolist_insert_instance h _
                {["reduced_embedding_size"%string := VInt z]} a emb Hd Ha)
    as Ha'.
  split; [done|]. split; [done|].
  split; [apply lookup_insert_eq|]. split; [done|].
  by rewrite (predict_tolist_adjust _ _ _ _ _ Hm' Ha'),
             (predict_tolist_adjust _ _ _ _ _ Hm Ha).
Qed.

Lemma construct_independent_witness :
  exists l' h',
    construct [VInt 4] (client_heap 2 [1.0; 2.0; 3.0]%float)
    = (Ok (VRef l'), h') /\
    l' <> client_model /\
    model_at h' client_model 2 /\ model_at h' l' 4 /\
    tolist h' (client_array [1.0; 2.0; 3.0]%float)
    = Some [1.0; 2.0; 3.0]%float /\
    predict_tolist h' client_model (client_array [1.0; 2.0; 3.0]%float)
    = predict_tolist (client_heap 2 [1.0; 2.0; 3.0]%float) client_model
                     (client_array [1.0; 2.0; 3.0]%float).
Proof.
  apply construct_independent; vm_compute; reflexivity.
Defined.

(** X13: __init__ called again on a constructed instance replaces the
    stored reduced_embedding_size, and predict then truncates by the new
    value: the attribute is fixed by no mechanism of the class. *)
Theorem init_again_replaces
  (h : heap) (l : loc) (t z : Z) (a : ndarray) (emb : list float) :
  model_at h l t -> tolist h a = Some emb ->
  exists h',
    call_method (VRef l) "__init__" [VInt z] h = (Ok VNone, h') /\
    h' = <[l := HInstance {["reduced_embedding_size"%string := VInt z]}]> h /\
    model_at h' l z /\
    predict_tolist h' l a
    = Some (take (Z.to_nat (if z <? 0 then Z.of_nat (length emb) + z else z))
                 emb).
Proof.
  intros Hm Ha. eexists. split.
  - rewrite (call_method_class h l t) by done.
    change (DummyEmbeddingDimensionalityReductionModel !! "__init__"%string)
      with (Some __init__).
    unfold call, __init__. simpl. unfold bind, setattr.
    unfold model_at in Hm. rewrite Hm. by rewrite insert_singleton_eq.
  - split; [done|].
    assert (model_at (<[l := HInstance
                          {["reduced_embedding_size"%string := VInt z]}]> h) l z)
      as Hm' by apply lookup_insert_eq.
    split; [done|]. rewrite <- take_adjust_bound.
    apply predict_tolist_adjust; [done|].
    apply tolist_insert_instance; [|done].
    intros Heq. destruct (tolist_data_buffer _ _ _ Ha) as [items Hitems].
    unfold model_at in Hm. congruence.
Qed.

Lemma init_again_replaces_witness :
  exists h',
    call_method (VRef client_model) "__init__" [VInt 1]
                (client_heap 2 [1.0; 2.0; 3.0]%float)
    = (Ok VNone, h') /\
    h' = <[client_model := HInstance
             {["reduced_embedding_size"%string := VInt 1]}]>
           (client_heap 2 [1.0; 2.0; 3.0]%float) /\
    model_at h' client_model 1 /\
    predict_tolist h' client_model (client_array [1.0; 2.0; 3.0]%float)
    = Some (take (Z.to_nat
                    (if 1 <? 0
                     then Z.of_nat (length [1.0; 2.0; 3.0]%float) + 1 else 1))
                 [1.0; 2.0; 3.0]%float).
Proof.
  apply (init_again_replaces _ _ 2); vm_compute; reflexivity.
Defined.

(** ** The lifecycle calls, for every argument list *)

(** X14: on a constructed instance dispose raises TypeError for every
    argument list, since the call always passes the instance to a function
    that takes nothing; build returns None when called without argument
    and raises TypeError otherwise.  Neither writes the heap. *)
Theorem lifecycle_calls (h : heap) (l : loc) (t : Z) (args : list value) :
  model_at h l t ->
  call_method (VRef l) "dispose" args h = (Raise TypeError, h) /\
  call_method (VRef l) "build" args h
  = (if decide (args = []) then Ok VNone else Raise TypeError, h).
Proof.
  intros Hm. split; [by apply (call_dispose h l t)|].
  rewrite (call_method_class h l t) by done.
  by destruct args as [|v args].
Qed.

Lemma lifecycle_calls_witness :
  call_method (VRef client_model) "dispose" [VNone] (client_heap 3 [])
  = (Raise TypeError, client_heap 3 []) /\
  call_method (VRef client_model) "build" [VNone] (client_heap 3 [])
  = (if decide ([VNone] = []) then Ok VNone else Raise TypeError,
     client_heap 3 []).
Proof. apply (lifecycle_calls _ _ 3). vm_compute; reflexivity. Defined.
